(** * Weighted variance swaps: pricing and P&L attribution

    A shallow embedding of
    [src/volatility_arbitrage/pricing_model/weighted_variance_swap.py].

    The Python code is written once against numpy's elementwise operators and
    runs unchanged on scalars and on arrays.  The embedding keeps that shape:
    every method is written once over a numeric layer (class [NumericLayer]),
    which is then instantiated at

    - [R], one array element seen on its own (a 0-d array), and
    - [ARRAY n], a 1-d array of [n] elements, with the operators acting
      elementwise.

    float64 values are idealised as real numbers: rounding, overflow and the
    non-finite values nan and inf are outside the layer [R].  There the
    division, [sqrt] and [ln] are the Standard Library's total functions;
    they are the mathematical ones wherever the divisor is non-zero, the
    radicand is non-negative and the argument of the logarithm is positive,
    and the theorems over [R] carry these conditions as hypotheses.  Two
    further models say what the layer [R] cannot:

    - the layer [option R] answers [None] once a division, a square root or
      a logarithm has left its domain, where the code goes on with nan or
      inf ([Some] says that no such step occurred, not that float64 did not
      overflow);
    - the module [Float64] repeats two methods in IEEE 754 binary64
      arithmetic, where [1 - exp x] saturates at 1 and a difference of
      nearly equal numbers rounds to 0. *)

From Stdlib Require Import Reals Lra List.
From Stdlib Require Floats.
Set Warnings "-stdlib-vector".
From Stdlib Require Vector.
Set Warnings "stdlib-vector".
Import ListNotations.

Set Implicit Arguments.

Local Open Scope R_scope.

(** ** The numeric layer (numpy) *)

Declare Scope np_scope.
Delimit Scope np_scope with np.

(** What the code asks of numpy: the four arithmetic operators and unary
    minus on arrays, [np.exp], [np.log], [np.sqrt], [np.zeros_like], and the
    broadcast of a Python float against an array. *)
Class NumericLayer (A : Type) : Type := {
  broadcast : R -> A;
  np_add : A -> A -> A;
  np_sub : A -> A -> A;
  np_mul : A -> A -> A;
  np_div : A -> A -> A;
  np_neg : A -> A;
  np_exp : A -> A;
  np_log : A -> A;
  np_sqrt : A -> A;
  np_zeros_like : A -> A
}.

Notation "x + y" := (np_add x y) : np_scope.
Notation "x - y" := (np_sub x y) : np_scope.
Notation "x * y" := (np_mul x y) : np_scope.
Notation "x / y" := (np_div x y) : np_scope.
Notation "- x" := (np_neg x) : np_scope.
Notation "$ r" := (broadcast r) (at level 1, r at level 0, format "$ r") : np_scope.

(** One element on its own. *)
#[export] Instance scalar_layer : NumericLayer R := {
  broadcast := fun r => r;
  np_add := Rplus;
  np_sub := Rminus;
  np_mul := Rmult;
  np_div := Rdiv;
  np_neg := Ropp;
  np_exp := exp;
  np_log := ln;
  np_sqrt := sqrt;
  np_zeros_like := fun _ => 0
}.

(** [ARRAY = npt.NDArray[np.float64]], here a 1-d array of [n] elements. *)
Definition ARRAY (n : nat) : Type := Vector.t R n.

(** All the arrays of one call have the same length, and a Python float is
    broadcast to that length. *)
#[export] Instance array_layer (n : nat) : NumericLayer (ARRAY n) := {
  broadcast := fun r => Vector.const r n;
  np_add := Vector.map2 Rplus;
  np_sub := Vector.map2 Rminus;
  np_mul := Vector.map2 Rmult;
  np_div := Vector.map2 Rdiv;
  np_neg := Vector.map Ropp;
  np_exp := Vector.map exp;
  np_log := Vector.map ln;
  np_sqrt := Vector.map sqrt;
  np_zeros_like := Vector.map (fun _ => 0)
}.

(** One element again, now recording whether every division, square root and
    logarithm was taken inside its domain: [None] once a divisor was zero, a
    radicand negative or the argument of a logarithm not positive (where
    numpy returns nan or inf and goes on), and from then on.  Overflow is
    not recorded: [Some] is an exact real still. *)
Definition lift1 (f : R -> R) (x : option R) : option R :=
  match x with
  | Some a => Some (f a)
  | None => None
  end.

Definition lift2 (f : R -> R -> R) (x y : option R) : option R :=
  match x, y with
  | Some a, Some b => Some (f a b)
  | _, _ => None
  end.

Definition checked_div (x y : option R) : option R :=
  match x, y with
  | Some a, Some b => if Req_dec_T b 0 then None else Some (a / b)
  | _, _ => None
  end.

Definition checked_log (x : option R) : option R :=
  match x with
  | Some a => if Rlt_dec 0 a then Some (ln a) else None
  | None => None
  end.

Definition checked_sqrt (x : option R) : option R :=
  match x with
  | Some a => if Rle_dec 0 a then Some (sqrt a) else None
  | None => None
  end.

#[export] Instance checked_layer : NumericLayer (option R) := {
  broadcast := fun r => Some r;
  np_add := lift2 Rplus;
  np_sub := lift2 Rminus;
  np_mul := lift2 Rmult;
  np_div := checked_div;
  np_neg := lift1 Ropp;
  np_exp := lift1 exp;
  np_log := checked_log;
  np_sqrt := checked_sqrt;
  np_zeros_like := fun _ => Some 0
}.

(** ** Model parameters (heston_model) *)

Module HestonModel.

(** Modelled from the spec: [HestonParams] of
    [volatility_arbitrage.pricing_model.heston_model], which is imported but
    not part of the sources at hand.  The spec gives its fields: the
    mean-reversion speed, the long-run variance level and the volatility of
    variance. *)
Record HestonParams : Type := {
  kappa : R;
  mean_of_var : R;
  vol_of_var : R
}.

(** Modelled from the spec: [Correlation] of the same module; the code reads
    only the correlation between spot and implied variance. *)
Record Correlation : Type := {
  rho_spot_imp : R
}.

End HestonModel.
Import HestonModel.

(** ** Outcome of a call that may raise *)

Inductive exception : Type :=
  | ConfigurationError
  | ValueError
  | TypeError.

Inductive outcome (T : Type) : Type :=
  | Returned (v : T)
  | Raised (e : exception).
Arguments Raised {T} e.

(** ** class WeightedVarianceSwap(ABC) *)

Module WeightedVarianceSwap.

(** The attributes [__init__] sets on [self]. *)
Record self_t : Type := {
  imp_var_params : HestonParams;
  real_var_params : HestonParams;
  corr : Correlation
}.

(** [__init__] stores its three arguments; it has no other statement. *)
Definition __init__ (imp_var_params real_var_params : HestonParams)
    (corr : Correlation) : outcome self_t :=
  Returned {| imp_var_params := imp_var_params;
              real_var_params := real_var_params;
              corr := corr |}.

(** The abstract methods: what a concrete instrument supplies.  [gamma_pnl]
    is a static method and does not see [self]. *)
Class Instrument (A : Type) : Type := {
  price : self_t -> A -> A -> A;
  var_vega : self_t -> A -> A;
  gamma_pnl : A -> A -> A;
  vanna_pnl : self_t -> A -> A -> A -> A -> A -> A -> A
}.

Section Methods.

Context {A : Type} {NL : NumericLayer A} {I : Instrument A}.
Local Open Scope np_scope.

Definition forward_var_vega (self : self_t) (tau_front tau_back : A) : A :=
  var_vega self tau_back - var_vega self tau_front.

Definition var_skew_stikiness_ratio (self : self_t) (real_var imp_var : A) : A :=
  $((corr self).(rho_spot_imp) * (imp_var_params self).(vol_of_var))
  * np_sqrt imp_var
  / np_sqrt real_var.

Definition min_var_delta (self : self_t) (real_var imp_var tau_0 tau_t : A) : A :=
  let forward_var_vega := forward_var_vega self (tau_0 - tau_t) tau_0 in
  let ssr := var_skew_stikiness_ratio self real_var imp_var in
  forward_var_vega * ssr.

Definition vega_hedge_pnl (self : self_t)
    (f_0 f_t real_var_0 imp_var_0 tau_0 tau_t : A) : A :=
  let min_var_delta := min_var_delta self real_var_0 imp_var_0 tau_0 tau_t in
  - min_var_delta * (f_t - f_0).

Definition total_pnl (self : self_t)
    (f_0 f_t real_var_0 imp_var_0 tau_0 imp_var_t tau_t : A) : A :=
  let price_0 := price self imp_var_0 tau_0 in
  let price_t := price self imp_var_t tau_t in
  let vanna_pnl := vanna_pnl self imp_var_0 tau_0 imp_var_t tau_t f_0 f_t in
  let gamma_pnl := gamma_pnl f_0 f_t in
  let vega_hedge_pnl :=
    vega_hedge_pnl self f_0 f_t real_var_0 imp_var_0 tau_0 tau_t in
  price_t - price_0 + vanna_pnl + gamma_pnl + vega_hedge_pnl.

Definition theta_pnl (self : self_t) (imp_var_0 tau_0 tau_t : A) : A :=
  - price self imp_var_0 (tau_t - tau_0).

Definition var_vega_pnl (self : self_t) (imp_var_0 tau_0 imp_var_t tau_t : A) : A :=
  let price_0 := price self imp_var_0 tau_0 in
  let price_t := price self imp_var_t tau_t in
  let theta_pnl := theta_pnl self imp_var_0 tau_0 tau_t in
  price_t - price_0 - theta_pnl.

End Methods.

End WeightedVarianceSwap.

(** ** class VarianceSwap(WeightedVarianceSwap) *)

Module VarianceSwap.

Import WeightedVarianceSwap.

Section Methods.

Context {A : Type} {NL : NumericLayer A}.
Local Open Scope np_scope.

Definition price (self : self_t) (imp_var tau : A) : A :=
  $((imp_var_params self).(mean_of_var)) * tau
  + (imp_var - $((imp_var_params self).(mean_of_var)))
    * ($1 - np_exp ($(- (imp_var_params self).(kappa)) * tau))
    / $((imp_var_params self).(kappa)).

Definition var_vega (self : self_t) (tau : A) : A :=
  ($1 - np_exp ($(- (imp_var_params self).(kappa)) * tau))
  / $((imp_var_params self).(kappa)).

Definition vanna_pnl (self : self_t)
    (imp_var_0 tau_0 imp_var_t tau_t f_0 f_t : A) : A :=
  np_zeros_like imp_var_0.

Definition gamma_pnl (f_0 f_t : A) : A :=
  $2 * (f_t / f_0 - $1 - np_log (f_t / f_0)).

End Methods.

(** [VarianceSwap] overrides the four abstract methods and inherits the
    rest. *)
#[export] Instance instrument {A : Type} {NL : NumericLayer A} : Instrument A := {
  WeightedVarianceSwap.price := price;
  WeightedVarianceSwap.var_vega := var_vega;
  WeightedVarianceSwap.gamma_pnl := gamma_pnl;
  WeightedVarianceSwap.vanna_pnl := vanna_pnl
}.

Section Inherited.

Context {A : Type} {NL : NumericLayer A}.

Definition forward_var_vega : self_t -> A -> A -> A :=
  WeightedVarianceSwap.forward_var_vega (I := instrument).
Definition var_skew_stikiness_ratio : self_t -> A -> A -> A :=
  WeightedVarianceSwap.var_skew_stikiness_ratio.
Definition min_var_delta : self_t -> A -> A -> A -> A -> A :=
  WeightedVarianceSwap.min_var_delta (I := instrument).
Definition vega_hedge_pnl : self_t -> A -> A -> A -> A -> A -> A -> A :=
  WeightedVarianceSwap.vega_hedge_pnl (I := instrument).
Definition total_pnl : self_t -> A -> A -> A -> A -> A -> A -> A -> A :=
  WeightedVarianceSwap.total_pnl (I := instrument).
Definition theta_pnl : self_t -> A -> A -> A -> A :=
  WeightedVarianceSwap.theta_pnl (I := instrument).
Definition var_vega_pnl : self_t -> A -> A -> A -> A -> A :=
  WeightedVarianceSwap.var_vega_pnl (I := instrument).

End Inherited.

End VarianceSwap.

(** ** The same lines in float64 *)

(** Rocq's primitive floats are IEEE 754 binary64 with round-to-nearest, as
    numpy's float64 is, so the arithmetic of the two methods below is the
    code's own, rounding and saturation included. *)
Module Float64.

Import PrimFloat.
Local Open Scope float_scope.

(** [np.exp] and [np.log] belong to numpy, not to this repository.  Recorded
    here are the float64 values of the exponential and of the logarithm,
    correctly rounded, at the arguments that the examples of this file use;
    at any other argument the table answers nan, from which nothing
    follows. *)
Definition np_exp (x : float) : float :=
  if x =? -200 then 0x1.6061812054cfap-289
  else if x =? -38 then 0x1.2188ad6ae3303p-55
  else if x =? 0 then 1
  else nan.

Definition np_log (x : float) : float :=
  if x =? 1 then 0
  else if x =? 0x1.fffffffffffffp-1 then -0x1p-53
  else nan.

Record HestonParams : Type := {
  kappa : float;
  mean_of_var : float;
  vol_of_var : float
}.

Definition var_vega (imp_var_params : HestonParams) (tau : float) : float :=
  (1 - np_exp (- imp_var_params.(kappa) * tau)) / imp_var_params.(kappa).

Definition gamma_pnl (f_0 f_t : float) : float :=
  2 * (f_t / f_0 - 1 - np_log (f_t / f_0)).

End Float64.

(** ** A reference scenario *)

(** The parameters of the spec's concrete scenario, [kappa = 2.0] and
    [mean_of_var = 0.04], completed with a volatility of variance and a
    negative spot correlation. *)
Definition reference_params : HestonParams :=
  {| kappa := 2; mean_of_var := 0.04; vol_of_var := 0.3 |}.

Definition reference_swap : WeightedVarianceSwap.self_t :=
  {| WeightedVarianceSwap.imp_var_params := reference_params;
     WeightedVarianceSwap.real_var_params :=
       {| kappa := 1; mean_of_var := 0.03; vol_of_var := 0.2 |};
     WeightedVarianceSwap.corr := {| rho_spot_imp := -0.7 |} |}.

(** * Properties *)

Import WeightedVarianceSwap.

(** ** The P&L identity *)

Section AnyInstrument.

Context {A : Type} {NL : NumericLayer A} {I : Instrument A}.
Local Open Scope np_scope.

(** C1. For every instrument, in every numeric layer, [total_pnl] is
    [price_t - price_0 + vanna_pnl + gamma_pnl + vega_hedge_pnl], term for
    term and in this order of evaluation. *)
Theorem total_pnl_identity
    (self : self_t) (f_0 f_t real_var_0 imp_var_0 tau_0 imp_var_t tau_t : A) :
  total_pnl self f_0 f_t real_var_0 imp_var_0 tau_0 imp_var_t tau_t
  = price self imp_var_t tau_t - price self imp_var_0 tau_0
    + vanna_pnl self imp_var_0 tau_0 imp_var_t tau_t f_0 f_t
    + gamma_pnl f_0 f_t
    + vega_hedge_pnl self f_0 f_t real_var_0 imp_var_0 tau_0 tau_t.
Proof. reflexivity. Qed.

End AnyInstrument.

(** ** Over exact reals: the risk decomposition and the hedge *)

(** Unfolds the methods of the base class and the operators of the scalar
    layer, leaving a goal in the arithmetic of [R]. *)
Ltac unfold_methods :=
  unfold total_pnl, var_vega_pnl, theta_pnl, vega_hedge_pnl, min_var_delta,
    var_skew_stikiness_ratio, forward_var_vega;
  cbn [broadcast np_add np_sub np_mul np_div np_neg np_exp np_log np_sqrt
       np_zeros_like scalar_layer].

Section AnyInstrumentOverR.

Context {I : Instrument R}.

(** C2. For every instrument, the total P&L is the sum of the five named
    components theta, variance vega, vanna, gamma and vega hedge, where
    [theta_pnl] is minus the price at [tau_t - tau_0] with the variance held
    at [imp_var_0], and [var_vega_pnl] is the price change net of theta. *)
Theorem total_pnl_five_components
    (self : self_t) (f_0 f_t real_var_0 imp_var_0 tau_0 imp_var_t tau_t : R) :
  theta_pnl self imp_var_0 tau_0 tau_t = - price self imp_var_0 (tau_t - tau_0)
  /\ var_vega_pnl self imp_var_0 tau_0 imp_var_t tau_t
     = price self imp_var_t tau_t - price self imp_var_0 tau_0
       - theta_pnl self imp_var_0 tau_0 tau_t
  /\ total_pnl self f_0 f_t real_var_0 imp_var_0 tau_0 imp_var_t tau_t
     = theta_pnl self imp_var_0 tau_0 tau_t
       + var_vega_pnl self imp_var_0 tau_0 imp_var_t tau_t
       + vanna_pnl self imp_var_0 tau_0 imp_var_t tau_t f_0 f_t
       + gamma_pnl f_0 f_t
       + vega_hedge_pnl self f_0 f_t real_var_0 imp_var_0 tau_0 tau_t.
Proof.
  split; [reflexivity | split; [reflexivity |]].
  unfold_methods. ring.
Qed.

(** C8. For every instrument and all inputs with positive realized and
    implied variance, the vega hedge P&L is minus the minimum-variance delta
    times the forward move; the delta is the forward variance vega over
    [tau_0 - tau_t, tau_0] times the skew-stickiness ratio
    [rho_spot_imp * vol_of_var * sqrt imp_var_0 / sqrt real_var_0] of the
    implied-variance process, a quotient of positive square roots. *)
Theorem vega_hedge_pnl_formula
    (self : self_t) (f_0 f_t real_var_0 imp_var_0 tau_0 tau_t : R) :
  0 < real_var_0 -> 0 < imp_var_0 ->
  vega_hedge_pnl self f_0 f_t real_var_0 imp_var_0 tau_0 tau_t
  = - (var_vega self tau_0 - var_vega self (tau_0 - tau_t))
    * (rho_spot_imp (corr self) * vol_of_var (imp_var_params self)
       * sqrt imp_var_0 / sqrt real_var_0)
    * (f_t - f_0)
  /\ vega_hedge_pnl self f_0 f_t real_var_0 imp_var_0 tau_0 tau_t
     = - min_var_delta self real_var_0 imp_var_0 tau_0 tau_t * (f_t - f_0)
  /\ min_var_delta self real_var_0 imp_var_0 tau_0 tau_t
     = forward_var_vega self (tau_0 - tau_t) tau_0
       * var_skew_stikiness_ratio self real_var_0 imp_var_0
  /\ var_skew_stikiness_ratio self real_var_0 imp_var_0 * sqrt real_var_0
     = rho_spot_imp (corr self) * vol_of_var (imp_var_params self)
       * sqrt imp_var_0
  /\ 0 < sqrt imp_var_0.
Proof.
  intros Hreal Himp.
  pose proof (sqrt_lt_R0 _ Hreal) as Hsr.
  refine (conj _ (conj eq_refl (conj eq_refl (conj _ _)))).
  - unfold_methods. ring.
  - unfold_methods. field. lra.
  - now apply sqrt_lt_R0.
Qed.

End AnyInstrumentOverR.

(** ** The variance swap over exact reals *)

(** Unfolds the inherited and the overridden methods of [VarianceSwap]. *)
Ltac unfold_variance_swap :=
  unfold VarianceSwap.total_pnl, VarianceSwap.var_vega_pnl,
    VarianceSwap.theta_pnl, VarianceSwap.vega_hedge_pnl,
    VarianceSwap.min_var_delta, VarianceSwap.var_skew_stikiness_ratio,
    VarianceSwap.forward_var_vega;
  unfold total_pnl, var_vega_pnl, theta_pnl, vega_hedge_pnl, min_var_delta,
    var_skew_stikiness_ratio, forward_var_vega;
  cbn [price var_vega gamma_pnl vanna_pnl VarianceSwap.instrument];
  unfold VarianceSwap.price, VarianceSwap.var_vega, VarianceSwap.gamma_pnl,
    VarianceSwap.vanna_pnl;
  cbn [broadcast np_add np_sub np_mul np_div np_neg np_exp np_log np_sqrt
       np_zeros_like scalar_layer].

(** The logarithm lies strictly below its tangent at 1. *)
Lemma ln_below_tangent (r : R) : 0 < r -> r <> 1 -> 0 < r - 1 - ln r.
Proof.
  intros Hr Hne.
  assert (Hy : ln r <> 0).
  { intro H0. apply Hne. rewrite <- (exp_ln r Hr), H0. apply exp_0. }
  pose proof (exp_ineq1 (ln r) Hy) as Hlt.
  rewrite (exp_ln r Hr) in Hlt. lra.
Qed.

Lemma exp_monotone (x y : R) : x <= y -> exp x <= exp y.
Proof.
  intros [Hlt | ->]; [left; now apply exp_increasing | right; reflexivity].
Qed.

(** [exp (- kappa * tau)] stays in (0, 1] for a positive [kappa] and a
    non-negative [tau]. *)
Lemma discount_range (kappa tau : R) :
  0 < kappa -> 0 <= tau -> 0 < exp (- kappa * tau) <= 1.
Proof.
  intros Hk Ht. split; [apply exp_pos |].
  rewrite <- exp_0. apply exp_monotone. nra.
Qed.

(** An unmoved forward earns no gamma P&L. *)
Lemma gamma_pnl_unmoved (f : R) : f <> 0 -> VarianceSwap.gamma_pnl f f = 0.
Proof.
  intros Hf. unfold_variance_swap.
  replace (f / f) with 1 by (field; exact Hf).
  rewrite ln_1. ring.
Qed.

(** The logarithm never exceeds its tangent at 1. *)
Lemma ln_le_tangent (r : R) : 0 < r -> 0 <= r - 1 - ln r.
Proof.
  intros Hr. destruct (Req_dec_T r 1) as [-> | Hne].
  - rewrite ln_1. lra.
  - left. now apply ln_below_tangent.
Qed.

(** C4, as amended.  The gamma P&L of the variance swap is
    [2 * (f_t / f_0 - 1 - ln (f_t / f_0))]; for positive forwards it is zero
    when the forward has not moved and it is never negative.  (That it is
    strictly positive once the forward has moved holds of exact reals only:
    [gamma_pnl_zero_after_a_move_in_float64] is a float64 move that earns
    exactly zero.) *)
Theorem gamma_pnl_convexity (f_0 f_t : R) :
  VarianceSwap.gamma_pnl f_0 f_t = 2 * (f_t / f_0 - 1 - ln (f_t / f_0))
  /\ (0 < f_0 -> 0 < f_t ->
      (f_t = f_0 -> VarianceSwap.gamma_pnl f_0 f_t = 0)
      /\ 0 <= VarianceSwap.gamma_pnl f_0 f_t).
Proof.
  split; [reflexivity |].
  intros H0 Ht. split.
  - intros ->. apply (gamma_pnl_unmoved (f := f_0)). lra.
  - unfold_variance_swap.
    assert (Hr : 0 < f_t / f_0) by (apply Rdiv_lt_0_compat; assumption).
    pose proof (ln_le_tangent Hr). lra.
Qed.

(** With the forward, the implied variance and the time to expiry unchanged,
    the hedge earns nothing and the total P&L is zero. *)
Lemma vega_hedge_pnl_unmoved (self : self_t) (f real_var_0 imp_var_0 tau_0 tau_t : R) :
  VarianceSwap.vega_hedge_pnl self f f real_var_0 imp_var_0 tau_0 tau_t = 0.
Proof. unfold_variance_swap. ring. Qed.

Lemma total_pnl_unchanged (self : self_t) (f real_var_0 imp_var tau : R) :
  f <> 0 ->
  VarianceSwap.total_pnl self f f real_var_0 imp_var tau imp_var tau = 0.
Proof.
  intros Hf. pose proof (gamma_pnl_unmoved Hf) as Hg.
  revert Hg. unfold_variance_swap. intros ->. ring.
Qed.

(** C3, as amended.  For a variance swap with a non-zero [kappa], a positive
    realized variance and a non-negative implied variance: when nothing has
    changed over the step (same forward, positive; same implied variance;
    same time to expiry), the gamma P&L, the vega hedge P&L and the total
    P&L are all zero.  (Without the three conditions on [kappa] and the
    variances the code divides by zero or takes the square root of a
    negative number: [zero_change_outside_the_domain].) *)
Theorem zero_change_zero_pnl
    (self : self_t) (f_0 f_t real_var_0 imp_var_0 tau_0 imp_var_t tau_t : R) :
  kappa (imp_var_params self) <> 0 -> 0 < real_var_0 -> 0 <= imp_var_0 ->
  f_0 = f_t -> 0 < f_0 -> imp_var_0 = imp_var_t -> tau_0 = tau_t ->
  VarianceSwap.gamma_pnl f_0 f_t = 0
  /\ VarianceSwap.vega_hedge_pnl self f_0 f_t real_var_0 imp_var_0 tau_0 tau_t = 0
  /\ VarianceSwap.total_pnl self f_0 f_t real_var_0 imp_var_0 tau_0 imp_var_t tau_t
     = 0.
Proof.
  intros Hk Hreal Himp <- Hf <- <-.
  assert (Hne : f_0 <> 0) by lra.
  split; [| split].
  - now apply gamma_pnl_unmoved.
  - apply vega_hedge_pnl_unmoved.
  - now apply total_pnl_unchanged.
Qed.

(** C6. The price of the variance swap is
    [mean_of_var * tau + (imp_var - mean_of_var) * (1 - exp (- kappa * tau)) / kappa];
    with [kappa = 2], [mean_of_var = 0.04], [tau = 1] and [imp_var = 0.09] it
    is [0.04 + 0.05 * (1 - exp (-2)) / 2]. *)
Theorem price_closed_form :
  (forall (self : self_t) (imp_var tau : R),
      VarianceSwap.price self imp_var tau
      = mean_of_var (imp_var_params self) * tau
        + (imp_var - mean_of_var (imp_var_params self))
          * (1 - exp (- kappa (imp_var_params self) * tau))
          / kappa (imp_var_params self))
  /\ (forall (vol : R) (real_var_params : HestonParams) (corr : Correlation),
         VarianceSwap.price
           {| imp_var_params :=
                {| kappa := 2; mean_of_var := 0.04; vol_of_var := vol |};
              real_var_params := real_var_params;
              corr := corr |}
           0.09 1
         = 0.04 + 0.05 * (1 - exp (-2)) / 2).
Proof.
  split.
  - reflexivity.
  - intros vol real_var_params corr. unfold_variance_swap.
    cbn [imp_var_params kappa mean_of_var].
    replace (- (2) * 1) with (-2) by ring. lra.
Qed.

(** C7, as amended.  With a positive [kappa]: the variance vega is
    [(1 - exp (- kappa * tau)) / kappa]; the price is affine in the implied
    variance with that slope; price and vega vanish at [tau = 0]; on
    [tau >= 0] the vega is nondecreasing, stays between 0 and [1 / kappa]
    and comes arbitrarily close to [1 / kappa] for large [tau].  (The bound
    [1 / kappa] is reached in float64:
    [var_vega_reaches_its_bound_in_float64].) *)
Theorem var_vega_properties (self : self_t) :
  0 < kappa (imp_var_params self) ->
  (forall tau : R,
      VarianceSwap.var_vega self tau
      = (1 - exp (- kappa (imp_var_params self) * tau))
        / kappa (imp_var_params self))
  /\ (forall v h tau : R,
         VarianceSwap.price self (v + h) tau - VarianceSwap.price self v tau
         = h * VarianceSwap.var_vega self tau)
  /\ (forall imp_var : R, VarianceSwap.price self imp_var 0 = 0)
  /\ VarianceSwap.var_vega self 0 = 0
  /\ (forall tau_1 tau_2 : R,
         0 <= tau_1 -> tau_1 <= tau_2 ->
         VarianceSwap.var_vega self tau_1 <= VarianceSwap.var_vega self tau_2)
  /\ (forall tau : R,
         0 <= tau ->
         0 <= VarianceSwap.var_vega self tau <= 1 / kappa (imp_var_params self))
  /\ (forall eps : R,
         0 < eps ->
         exists T : R,
           0 <= T /\
           forall tau : R,
             T <= tau ->
             1 / kappa (imp_var_params self) - eps
             < VarianceSwap.var_vega self tau).
Proof.
  intros Hk. unfold_variance_swap.
  set (k := kappa (imp_var_params self)) in *.
  set (m := mean_of_var (imp_var_params self)).
  assert (Hik : 0 < / k) by (apply Rinv_0_lt_compat; exact Hk).
  refine (conj _ (conj _ (conj _ (conj _ (conj _ (conj _ _)))))).
  - reflexivity.
  - intros v h tau. field. lra.
  - intros imp_var. rewrite !Rmult_0_r, exp_0. field. lra.
  - rewrite Rmult_0_r, exp_0. field. lra.
  - intros tau_1 tau_2 H1 H12.
    assert (exp (- k * tau_2) <= exp (- k * tau_1))
      by (apply exp_monotone; nra).
    unfold Rdiv. apply Rmult_le_compat_r; lra.
  - intros tau Ht.
    pose proof (discount_range Hk Ht) as [Hpos Hle].
    split; unfold Rdiv.
    + apply Rmult_le_pos; lra.
    + apply Rmult_le_compat_r; lra.
  - (* past [T], [exp (- k * tau)] is below [eps * k] *)
    intros eps Heps.
    assert (Hek : 0 < eps * k) by (apply Rmult_lt_0_compat; assumption).
    exists (Rmax 0 ((1 - ln (eps * k)) / k)).
    split; [apply Rmax_l |].
    intros tau HT.
    assert (HT' : (1 - ln (eps * k)) / k <= tau)
      by (eapply Rle_trans; [apply Rmax_r | exact HT]).
    assert (Hlin : - k * tau < ln (eps * k)).
    { apply (Rmult_le_compat_l k) in HT'; [| lra].
      replace (k * ((1 - ln (eps * k)) / k)) with (1 - ln (eps * k)) in HT'
        by (field; lra).
      lra. }
    apply exp_increasing in Hlin. rewrite (exp_ln _ Hek) in Hlin.
    apply (Rmult_lt_compat_r (/ k)) in Hlin; [| exact Hik].
    replace (eps * k * / k) with eps in Hlin by (field; lra).
    unfold Rdiv. lra.
Qed.

(** ** Domains *)

Section Domains.

Lemma checked_div_defined (a b : R) :
  b <> 0 -> checked_div (Some a) (Some b) = Some (a / b).
Proof.
  intros Hb. unfold checked_div.
  destruct (Req_dec_T b 0) as [H0 | _]; [contradiction | reflexivity].
Qed.

Lemma checked_log_defined (a : R) :
  0 < a -> checked_log (Some a) = Some (ln a).
Proof.
  intros Ha. unfold checked_log.
  destruct (Rlt_dec 0 a) as [_ | Hn]; [reflexivity | contradiction].
Qed.

Lemma checked_sqrt_defined (a : R) :
  0 <= a -> checked_sqrt (Some a) = Some (sqrt a).
Proof.
  intros Ha. unfold checked_sqrt.
  destruct (Rle_dec 0 a) as [_ | Hn]; [reflexivity | contradiction].
Qed.

Ltac unfold_checked :=
  cbn [broadcast np_add np_sub np_mul np_div np_neg np_exp np_log np_sqrt
       np_zeros_like scalar_layer checked_layer lift1 lift2].

(** With a non-zero [kappa], the price and the variance vega of the variance
    swap stay inside the domains, at every implied variance and time. *)
Lemma price_in_domain (self : self_t) (imp_var tau : R) :
  kappa (imp_var_params self) <> 0 ->
  VarianceSwap.price self (Some imp_var) (Some tau)
  = Some (VarianceSwap.price self imp_var tau).
Proof.
  intros Hk. unfold VarianceSwap.price. unfold_checked.
  now rewrite (checked_div_defined _ Hk).
Qed.

Lemma var_vega_in_domain (self : self_t) (tau : R) :
  kappa (imp_var_params self) <> 0 ->
  VarianceSwap.var_vega self (Some tau)
  = Some (VarianceSwap.var_vega self tau).
Proof.
  intros Hk. unfold VarianceSwap.var_vega. unfold_checked.
  now rewrite (checked_div_defined _ Hk).
Qed.

Lemma gamma_pnl_in_domain (f_0 f_t : R) :
  0 < f_0 -> 0 < f_t ->
  VarianceSwap.gamma_pnl (Some f_0) (Some f_t)
  = Some (VarianceSwap.gamma_pnl f_0 f_t).
Proof.
  intros H0 Ht. unfold VarianceSwap.gamma_pnl. unfold_checked.
  rewrite (@checked_div_defined f_t f_0) by lra. unfold_checked.
  rewrite checked_log_defined by (apply Rdiv_lt_0_compat; assumption).
  reflexivity.
Qed.

Lemma var_skew_stikiness_ratio_in_domain (self : self_t) (real_var imp_var : R) :
  0 < real_var -> 0 <= imp_var ->
  VarianceSwap.var_skew_stikiness_ratio self (Some real_var) (Some imp_var)
  = Some (VarianceSwap.var_skew_stikiness_ratio self real_var imp_var).
Proof.
  intros Hreal Himp.
  unfold VarianceSwap.var_skew_stikiness_ratio, var_skew_stikiness_ratio.
  unfold_checked.
  rewrite (checked_sqrt_defined Himp), checked_sqrt_defined by lra.
  unfold_checked.
  rewrite checked_div_defined; [reflexivity |].
  pose proof (sqrt_lt_R0 _ Hreal). lra.
Qed.

(** On the data model, the total P&L of the variance swap is computed
    without leaving a domain, and is the value computed over [R]. *)
Lemma total_pnl_in_domain
    (self : self_t) (f_0 f_t real_var_0 imp_var_0 tau_0 imp_var_t tau_t : R) :
  kappa (imp_var_params self) <> 0 ->
  0 < f_0 -> 0 < f_t -> 0 < real_var_0 -> 0 <= imp_var_0 ->
  VarianceSwap.total_pnl self (Some f_0) (Some f_t) (Some real_var_0)
    (Some imp_var_0) (Some tau_0) (Some imp_var_t) (Some tau_t)
  = Some (VarianceSwap.total_pnl self f_0 f_t real_var_0 imp_var_0 tau_0
            imp_var_t tau_t).
Proof.
  intros Hk H0 Ht Hreal Himp.
  unfold VarianceSwap.total_pnl, total_pnl, vega_hedge_pnl, min_var_delta,
    forward_var_vega.
  cbn [price var_vega gamma_pnl vanna_pnl VarianceSwap.instrument].
  fold (VarianceSwap.var_skew_stikiness_ratio (A := option R)).
  fold (VarianceSwap.var_skew_stikiness_ratio (A := R)).
  unfold VarianceSwap.vanna_pnl.
  unfold_checked.
  rewrite !price_in_domain, !var_vega_in_domain by exact Hk.
  rewrite gamma_pnl_in_domain, var_skew_stikiness_ratio_in_domain
    by assumption.
  reflexivity.
Qed.

End Domains.

(** ** Arrays *)

Section Arrays.

Variable n : nat.

(** [np.zeros_like] of an array of [n] elements is [n] zeros. *)
Lemma zeros_like_const (a : ARRAY n) : np_zeros_like a = Vector.const 0 n.
Proof.
  apply Vector.eq_nth_iff. intros p ? <-. cbn.
  now rewrite (Vector.nth_map _ a p p eq_refl), Vector.const_nth.
Qed.

(** The operators of the array layer act element by element, so that the
    element at index [p] of a result is the scalar method applied to the
    elements at index [p] of the arguments. *)
Ltac elementwise :=
  cbn [broadcast np_add np_sub np_mul np_div np_neg np_exp np_log np_sqrt
       np_zeros_like scalar_layer array_layer];
  repeat first
    [ rewrite (Vector.nth_map2 _ _ _ _ _ _ eq_refl eq_refl)
    | rewrite (Vector.nth_map _ _ _ _ eq_refl)
    | rewrite Vector.const_nth ];
  try reflexivity.

Lemma price_elementwise (self : self_t) (imp_var tau : ARRAY n) (p : Fin.t n) :
  Vector.nth (VarianceSwap.price self imp_var tau) p
  = VarianceSwap.price self (Vector.nth imp_var p) (Vector.nth tau p).
Proof. unfold VarianceSwap.price. elementwise. Qed.

Lemma var_vega_elementwise (self : self_t) (tau : ARRAY n) (p : Fin.t n) :
  Vector.nth (VarianceSwap.var_vega self tau) p
  = VarianceSwap.var_vega self (Vector.nth tau p).
Proof. unfold VarianceSwap.var_vega. elementwise. Qed.

Lemma gamma_pnl_elementwise (f_0 f_t : ARRAY n) (p : Fin.t n) :
  Vector.nth (VarianceSwap.gamma_pnl f_0 f_t) p
  = VarianceSwap.gamma_pnl (Vector.nth f_0 p) (Vector.nth f_t p).
Proof. unfold VarianceSwap.gamma_pnl. elementwise. Qed.

Lemma vega_hedge_pnl_elementwise
    (self : self_t) (f_0 f_t real_var_0 imp_var_0 tau_0 tau_t : ARRAY n)
    (p : Fin.t n) :
  Vector.nth
    (VarianceSwap.vega_hedge_pnl self f_0 f_t real_var_0 imp_var_0 tau_0 tau_t) p
  = VarianceSwap.vega_hedge_pnl self (Vector.nth f_0 p) (Vector.nth f_t p)
      (Vector.nth real_var_0 p) (Vector.nth imp_var_0 p)
      (Vector.nth tau_0 p) (Vector.nth tau_t p).
Proof.
  unfold VarianceSwap.vega_hedge_pnl, vega_hedge_pnl, min_var_delta,
    var_skew_stikiness_ratio, forward_var_vega.
  cbn [var_vega VarianceSwap.instrument]. unfold VarianceSwap.var_vega.
  elementwise.
Qed.

Lemma total_pnl_elementwise
    (self : self_t)
    (f_0 f_t real_var_0 imp_var_0 tau_0 imp_var_t tau_t : ARRAY n) (p : Fin.t n) :
  Vector.nth
    (VarianceSwap.total_pnl self f_0 f_t real_var_0 imp_var_0 tau_0 imp_var_t
       tau_t) p
  = VarianceSwap.total_pnl self (Vector.nth f_0 p) (Vector.nth f_t p)
      (Vector.nth real_var_0 p) (Vector.nth imp_var_0 p) (Vector.nth tau_0 p)
      (Vector.nth imp_var_t p) (Vector.nth tau_t p).
Proof.
  unfold VarianceSwap.total_pnl, total_pnl, vega_hedge_pnl, min_var_delta,
    var_skew_stikiness_ratio, forward_var_vega.
  cbn [price var_vega gamma_pnl vanna_pnl VarianceSwap.instrument].
  unfold VarianceSwap.price, VarianceSwap.var_vega, VarianceSwap.gamma_pnl,
    VarianceSwap.vanna_pnl.
  elementwise.
Qed.

(** X19. The decomposition into five components holds for arrays as it does
    for one element, for every instrument. *)
Lemma total_pnl_five_components_arrays
    (I : Instrument (ARRAY n)) (self : self_t)
    (f_0 f_t real_var_0 imp_var_0 tau_0 imp_var_t tau_t : ARRAY n) :
  (total_pnl self f_0 f_t real_var_0 imp_var_0 tau_0 imp_var_t tau_t
   = theta_pnl self imp_var_0 tau_0 tau_t
     + var_vega_pnl self imp_var_0 tau_0 imp_var_t tau_t
     + vanna_pnl self imp_var_0 tau_0 imp_var_t tau_t f_0 f_t
     + gamma_pnl f_0 f_t
     + vega_hedge_pnl self f_0 f_t real_var_0 imp_var_0 tau_0 tau_t)%np.
Proof.
  apply Vector.eq_nth_iff. intros p ? <-.
  unfold total_pnl, var_vega_pnl, theta_pnl.
  elementwise. ring.
Qed.

(** X20. Arrays that have not changed over the step, with a non-zero
    [kappa], positive forwards, positive realized variances and non-negative
    implied variances: every element of the total P&L is zero. *)
Lemma total_pnl_unchanged_arrays
    (self : self_t) (f real_var_0 imp_var tau : ARRAY n) :
  kappa (imp_var_params self) <> 0 ->
  (forall p : Fin.t n, 0 < Vector.nth f p) ->
  (forall p : Fin.t n, 0 < Vector.nth real_var_0 p) ->
  (forall p : Fin.t n, 0 <= Vector.nth imp_var p) ->
  VarianceSwap.total_pnl self f f real_var_0 imp_var tau imp_var tau
  = Vector.const 0 n.
Proof.
  intros Hk Hf Hreal Himp. apply Vector.eq_nth_iff. intros p ? <-.
  rewrite total_pnl_elementwise, Vector.const_nth.
  apply total_pnl_unchanged. specialize (Hf p). lra.
Qed.

Example vanna_pnl_of_empty_arrays :
  VarianceSwap.vanna_pnl reference_swap (Vector.nil R) (Vector.nil R)
    (Vector.nil R) (Vector.nil R) (Vector.nil R) (Vector.nil R)
  = Vector.nil R.
Proof. reflexivity. Qed.

Example vanna_pnl_of_three_elements :
  let imp_var := Vector.of_list [0.09; 0.04; 0.01] in
  let tau := Vector.of_list [1; 0.5; 0] in
  let f := Vector.of_list [100; 110; 90] in
  Vector.to_list (VarianceSwap.vanna_pnl reference_swap imp_var tau imp_var tau f f)
  = [0; 0; 0].
Proof. reflexivity. Qed.

(** C5. The vanna P&L of the variance swap is an array of zeros as long as
    [imp_var_0], for arrays of every length [n], the empty one included, and
    whatever the other arguments hold; on a single element it is zero. *)
Theorem vanna_pnl_zeros
    (self : self_t) (imp_var_0 tau_0 imp_var_t tau_t f_0 f_t : ARRAY n) :
  let out := VarianceSwap.vanna_pnl self imp_var_0 tau_0 imp_var_t tau_t f_0 f_t in
  length (Vector.to_list out) = length (Vector.to_list imp_var_0)
  /\ Forall (fun x => x = 0) (Vector.to_list out)
  /\ Vector.to_list out = repeat 0 n
  /\ (forall (x_0 t_0 x_t t_t g_0 g_t : R),
         VarianceSwap.vanna_pnl self x_0 t_0 x_t t_t g_0 g_t = 0).
Proof.
  intros out.
  assert (Hout : Vector.to_list out = repeat 0 n).
  { unfold out, VarianceSwap.vanna_pnl.
    now rewrite zeros_like_const, Vector.to_list_const. }
  rewrite Hout, repeat_length, Vector.length_to_list.
  refine (conj eq_refl (conj _ (conj eq_refl _))).
  - apply Forall_forall. intros x Hx. now apply repeat_spec in Hx.
  - reflexivity.
Qed.

End Arrays.

(** ** Construction *)

(** C9, as the code has it.  [__init__] validates nothing: whatever the
    parameters, a non-positive [kappa] included, it returns an instance that
    holds the three arguments unchanged, and it raises no error. *)
Theorem construction_never_rejects
    (imp real : HestonParams) (c : Correlation) :
  exists self : self_t,
    __init__ imp real c = Returned self
    /\ imp_var_params self = imp
    /\ real_var_params self = real
    /\ corr self = c
    /\ forall e : exception, __init__ imp real c <> Raised e.
Proof.
  eexists. split; [reflexivity |].
  repeat split. intros e. discriminate.
Qed.

(** C9, as stated, fails: with [kappa = 0] (and likewise with a negative
    [kappa]) construction returns an instance and raises nothing. *)
Lemma nonpositive_kappa_not_rejected :
  let zero := {| kappa := 0; mean_of_var := 0.04; vol_of_var := 0.3 |} in
  let negative := {| kappa := -2; mean_of_var := 0.04; vol_of_var := 0.3 |} in
  let real := {| kappa := 2; mean_of_var := 0.04; vol_of_var := 0.3 |} in
  let c := {| rho_spot_imp := -0.7 |} in
  kappa zero <= 0 /\ kappa negative <= 0
  /\ ~ (exists e : exception, __init__ zero real c = Raised e)
  /\ ~ (exists e : exception, __init__ negative real c = Raised e).
Proof.
  cbn. repeat split; try lra; intros [e He]; discriminate He.
Qed.

(** ** The realized-variance parameters are never read *)

Section NonInterference.

Context {A : Type} {NL : NumericLayer A}.

(** C10. Two variance swaps built from the same implied-variance parameters
    and correlation, and from any two sets of realized-variance parameters,
    agree on every query that takes the instrument, in every numeric layer
    ([gamma_pnl] is a static method: it is not handed the instrument at
    all). *)
Theorem real_var_params_never_read
    (imp real_1 real_2 : HestonParams) (c : Correlation) (s_1 s_2 : self_t) :
  __init__ imp real_1 c = Returned s_1 ->
  __init__ imp real_2 c = Returned s_2 ->
  VarianceSwap.price s_1 = VarianceSwap.price (A := A) s_2
  /\ VarianceSwap.var_vega s_1 = VarianceSwap.var_vega (A := A) s_2
  /\ VarianceSwap.forward_var_vega s_1 = VarianceSwap.forward_var_vega (A := A) s_2
  /\ VarianceSwap.var_skew_stikiness_ratio s_1
     = VarianceSwap.var_skew_stikiness_ratio (A := A) s_2
  /\ VarianceSwap.min_var_delta s_1 = VarianceSwap.min_var_delta (A := A) s_2
  /\ VarianceSwap.theta_pnl s_1 = VarianceSwap.theta_pnl (A := A) s_2
  /\ VarianceSwap.var_vega_pnl s_1 = VarianceSwap.var_vega_pnl (A := A) s_2
  /\ VarianceSwap.vanna_pnl s_1 = VarianceSwap.vanna_pnl (A := A) s_2
  /\ VarianceSwap.vega_hedge_pnl s_1 = VarianceSwap.vega_hedge_pnl (A := A) s_2
  /\ VarianceSwap.total_pnl s_1 = VarianceSwap.total_pnl (A := A) s_2.
Proof.
  intros H1 H2.
  injection H1 as <-. injection H2 as <-.
  repeat split.
Qed.

End NonInterference.

(** ** The theorems at the reference scenario *)

Lemma gamma_pnl_convexity_witness :
  0 < 100 /\ 0 < 110 /\ 0 <= VarianceSwap.gamma_pnl 100 110.
Proof.
  assert (H0 : 0 < 100) by lra.
  assert (Ht : 0 < 110) by lra.
  split; [exact H0 | split; [exact Ht |]].
  apply (proj2 (@gamma_pnl_convexity 100 110) H0 Ht).
Defined.

Lemma zero_change_zero_pnl_witness :
  kappa (imp_var_params reference_swap) <> 0 /\ 0 < 0.04 /\ 0 <= 0.09
  /\ 0 < 100
  /\ VarianceSwap.total_pnl reference_swap 100 100 0.04 0.09 1 0.09 1 = 0.
Proof.
  assert (Hk : kappa (imp_var_params reference_swap) <> 0) by (cbn; lra).
  assert (Hreal : 0 < 0.04) by lra.
  assert (Himp : 0 <= 0.09) by lra.
  assert (Hf : 0 < 100) by lra.
  split; [exact Hk | split; [exact Hreal | split; [exact Himp |]]].
  split; [exact Hf |].
  apply (@zero_change_zero_pnl reference_swap 100 100 0.04 0.09 1 0.09 1
           Hk Hreal Himp eq_refl Hf eq_refl eq_refl).
Defined.

Lemma var_vega_properties_witness :
  0 < kappa (imp_var_params reference_swap)
  /\ VarianceSwap.var_vega reference_swap 0 = 0.
Proof.
  assert (Hk : 0 < kappa (imp_var_params reference_swap)) by (cbn; lra).
  split; [exact Hk |].
  apply (@var_vega_properties reference_swap Hk).
Defined.

Lemma vega_hedge_pnl_formula_witness :
  0 < 0.04 /\ 0 < 0.09
  /\ VarianceSwap.vega_hedge_pnl reference_swap 100 110 0.04 0.09 1 0.9
     = - VarianceSwap.min_var_delta reference_swap 0.04 0.09 1 0.9 * (110 - 100).
Proof.
  assert (Hreal : 0 < 0.04) by lra.
  assert (Himp : 0 < 0.09) by lra.
  split; [exact Hreal | split; [exact Himp |]].
  apply (@vega_hedge_pnl_formula VarianceSwap.instrument reference_swap
           100 110 0.04 0.09 1 0.9 Hreal Himp).
Defined.

Lemma real_var_params_never_read_witness :
  let other := {| kappa := 5; mean_of_var := 0.5; vol_of_var := 1 |} in
  real_var_params reference_swap <> other
  /\ VarianceSwap.total_pnl (A := R) reference_swap
     = VarianceSwap.total_pnl
         {| imp_var_params := reference_params;
            real_var_params := other;
            corr := corr reference_swap |}.
Proof.
  intros other. split.
  - intros H. apply (f_equal kappa) in H. cbn in H. lra.
  - apply (@real_var_params_never_read R scalar_layer reference_params
             (real_var_params reference_swap) other (corr reference_swap)
             reference_swap _ eq_refl eq_refl).
Defined.

(** * Further properties *)

(** ** Buckets of variance vega and the hedge, for every instrument *)

Section BucketsAndHedge.

Context {I : Instrument R}.

(** X1. Forward variance vegas chain over adjacent expiry buckets: the vega
    of [a, b] plus the vega of [b, c] is the vega of [a, c], and swapping
    the ends of a bucket flips the sign. *)
Theorem forward_var_vega_buckets (self : self_t) (a b c : R) :
  forward_var_vega self a b + forward_var_vega self b c
  = forward_var_vega self a c
  /\ forward_var_vega self a b = - forward_var_vega self b a.
Proof.
  unfold forward_var_vega.
  cbn [np_sub scalar_layer].
  split; ring.
Qed.

(** X2. For the variance swap inside its domains (a positive [kappa], a
    positive realized and a non-negative implied variance, times to expiry
    with [0 <= tau_t <= tau_0]): without a link between spot and implied
    variance (a zero [rho_spot_imp] or a zero [vol_of_var] of the
    implied-variance process) the skew-stickiness ratio, the
    minimum-variance delta and the vega hedge P&L are zero, and the total
    P&L is the price change plus gamma. *)
Theorem no_spot_vol_link_no_hedge
    (self : self_t) (f_0 f_t real_var_0 imp_var_0 tau_0 imp_var_t tau_t : R) :
  rho_spot_imp (corr self) = 0 \/ vol_of_var (imp_var_params self) = 0 ->
  0 < kappa (imp_var_params self) ->
  0 < real_var_0 -> 0 <= imp_var_0 -> 0 <= tau_t <= tau_0 ->
  VarianceSwap.var_skew_stikiness_ratio self real_var_0 imp_var_0 = 0
  /\ VarianceSwap.min_var_delta self real_var_0 imp_var_0 tau_0 tau_t = 0
  /\ VarianceSwap.vega_hedge_pnl self f_0 f_t real_var_0 imp_var_0 tau_0 tau_t
     = 0
  /\ VarianceSwap.total_pnl self f_0 f_t real_var_0 imp_var_0 tau_0 imp_var_t
       tau_t
     = VarianceSwap.price self imp_var_t tau_t
       - VarianceSwap.price self imp_var_0 tau_0
       + VarianceSwap.gamma_pnl f_0 f_t.
Proof.
  intros Hlink Hk Hreal Himp Htau.
  assert (Hz : rho_spot_imp (corr self) * vol_of_var (imp_var_params self) = 0)
    by (destruct Hlink as [-> | ->]; ring).
  unfold_variance_swap. rewrite Hz.
  repeat split; unfold Rdiv; ring.
Qed.

(** X3. The hedge is sized on the bucket [tau_0 - tau_t, tau_0].  For the
    variance swap inside its domains (a positive [kappa], a positive
    realized and a non-negative implied variance, [tau_0 >= 0]): when the
    time to expiry at [t] is zero the bucket is empty, and the
    minimum-variance delta and the vega hedge P&L are zero whatever the
    forward does. *)
Theorem empty_bucket_no_hedge
    (self : self_t) (f_0 f_t real_var_0 imp_var_0 tau_0 : R) :
  0 < kappa (imp_var_params self) ->
  0 < real_var_0 -> 0 <= imp_var_0 -> 0 <= tau_0 ->
  VarianceSwap.min_var_delta self real_var_0 imp_var_0 tau_0 0 = 0
  /\ VarianceSwap.vega_hedge_pnl self f_0 f_t real_var_0 imp_var_0 tau_0 0 = 0.
Proof.
  intros Hk Hreal Himp Htau.
  unfold_variance_swap. rewrite Rminus_0_r.
  split; unfold Rdiv; ring.
Qed.

(** X4. With the variances and the times held fixed, the vega hedge P&L is
    linear in the forward move: it adds up over consecutive moves, changes
    sign when the move is reversed, and depends on the two forwards only
    through their difference. *)
Theorem vega_hedge_pnl_linear_in_move
    (self : self_t) (f_0 f_1 f_2 shift real_var_0 imp_var_0 tau_0 tau_t : R) :
  vega_hedge_pnl self f_0 f_1 real_var_0 imp_var_0 tau_0 tau_t
  + vega_hedge_pnl self f_1 f_2 real_var_0 imp_var_0 tau_0 tau_t
  = vega_hedge_pnl self f_0 f_2 real_var_0 imp_var_0 tau_0 tau_t
  /\ vega_hedge_pnl self f_1 f_0 real_var_0 imp_var_0 tau_0 tau_t
     = - vega_hedge_pnl self f_0 f_1 real_var_0 imp_var_0 tau_0 tau_t
  /\ vega_hedge_pnl self (f_0 + shift) (f_1 + shift) real_var_0 imp_var_0
       tau_0 tau_t
     = vega_hedge_pnl self f_0 f_1 real_var_0 imp_var_0 tau_0 tau_t.
Proof.
  unfold_methods. repeat split; ring.
Qed.

(** X5. The theta P&L sees the two times to expiry only through their
    difference, and the variance vega P&L makes up the rest of the price
    change: theta plus variance vega is [price_t - price_0]. *)
Theorem theta_pnl_time_shift
    (self : self_t) (imp_var_0 tau_0 imp_var_t tau_t shift : R) :
  theta_pnl self imp_var_0 (tau_0 + shift) (tau_t + shift)
  = theta_pnl self imp_var_0 tau_0 tau_t
  /\ theta_pnl self imp_var_0 tau_0 tau_t
     + var_vega_pnl self imp_var_0 tau_0 imp_var_t tau_t
     = price self imp_var_t tau_t - price self imp_var_0 tau_0.
Proof.
  unfold_methods. split.
  - replace (tau_t + shift - (tau_0 + shift)) with (tau_t - tau_0) by ring.
    reflexivity.
  - ring.
Qed.

End BucketsAndHedge.

(** ** The variance swap: price and vega *)

Section VarianceSwapPrice.

Variable self : self_t.
Let k := kappa (imp_var_params self).
Let m := mean_of_var (imp_var_params self).

(** The variance vega never exceeds the time to expiry. *)
Lemma var_vega_le_tau (tau : R) :
  0 < k -> 0 <= tau -> VarianceSwap.var_vega self tau <= tau.
Proof.
  intros Hk Ht. unfold_variance_swap. fold k.
  pose proof (exp_ineq1_le (- k * tau)) as Hexp.
  apply (Rmult_le_reg_r k); [exact Hk |].
  replace ((1 - exp (- k * tau)) / k * k) with (1 - exp (- k * tau))
    by (field; lra).
  lra.
Qed.

Lemma var_vega_nonneg (tau : R) :
  0 < k -> 0 <= tau -> 0 <= VarianceSwap.var_vega self tau.
Proof.
  intros Hk Ht. unfold_variance_swap. fold k.
  pose proof (discount_range Hk Ht) as [_ Hle].
  unfold Rdiv. apply Rmult_le_pos; [lra |].
  left. now apply Rinv_0_lt_compat.
Qed.

(** The price is the long-run level accrued over [tau] plus the variance
    vega times the gap to that level. *)
Lemma price_as_vega (imp_var tau : R) :
  VarianceSwap.price self imp_var tau
  = m * tau + (imp_var - m) * VarianceSwap.var_vega self tau.
Proof. unfold_variance_swap. fold k m. unfold Rdiv. ring. Qed.

(** X6. With a positive [kappa] and a non-negative time to expiry, the price
    lies between the long-run level and the current implied variance, each
    accrued over [tau]; with non-negative variances it is non-negative; and
    the variance vega is at most [tau]. *)
Theorem price_between_levels (imp_var tau : R) :
  0 < k -> 0 <= tau ->
  Rmin imp_var m * tau <= VarianceSwap.price self imp_var tau
                       <= Rmax imp_var m * tau
  /\ (0 <= imp_var -> 0 <= m -> 0 <= VarianceSwap.price self imp_var tau)
  /\ VarianceSwap.var_vega self tau <= tau.
Proof.
  intros Hk Ht.
  pose proof (var_vega_le_tau Hk Ht) as Hle.
  pose proof (var_vega_nonneg Hk Ht) as Hge.
  rewrite price_as_vega.
  set (vv := VarianceSwap.var_vega self tau) in *.
  assert (Hbounds : Rmin imp_var m * tau <= m * tau + (imp_var - m) * vv
                    <= Rmax imp_var m * tau).
  { unfold Rmin, Rmax. destruct (Rle_dec imp_var m); split; nra. }
  refine (conj Hbounds (conj _ Hle)).
  intros Hv Hm.
  apply Rle_trans with (Rmin imp_var m * tau); [| apply Hbounds].
  apply Rmult_le_pos; [| exact Ht].
  unfold Rmin. destruct (Rle_dec imp_var m); assumption.
Qed.

(** X7. The price over [s + t] is the price over [s] plus the price over
    [t] started from the variance expected after [s], which has decayed
    towards the long-run level by [exp (- kappa * s)]. *)
Theorem price_tower (imp_var s t : R) :
  k <> 0 ->
  VarianceSwap.price self imp_var (s + t)
  = VarianceSwap.price self imp_var s
    + VarianceSwap.price self (m + (imp_var - m) * exp (- k * s)) t.
Proof.
  intros Hk. unfold_variance_swap. fold k m.
  replace (- k * (s + t)) with (- k * s + - k * t) by ring.
  rewrite exp_plus. field. exact Hk.
Qed.

(** X8. With a positive [kappa], the price at the long-run level is that
    level accrued over [tau], and for a non-negative [tau] the price is
    nondecreasing in the implied variance. *)
Theorem price_monotone_in_imp_var (v_1 v_2 tau : R) :
  0 < k ->
  VarianceSwap.price self m tau = m * tau
  /\ (0 <= tau -> v_1 <= v_2 ->
      VarianceSwap.price self v_1 tau <= VarianceSwap.price self v_2 tau).
Proof.
  intros Hk. rewrite !price_as_vega.
  split.
  - ring.
  - intros Ht Hv. pose proof (var_vega_nonneg Hk Ht). nra.
Qed.

Lemma forward_var_vega_closed_form (tau_front tau_back : R) :
  k <> 0 ->
  VarianceSwap.forward_var_vega self tau_front tau_back
  = (exp (- k * tau_front) - exp (- k * tau_back)) / k.
Proof. intros Hk. unfold_variance_swap. fold k. field. exact Hk. Qed.

Lemma forward_var_vega_pos (tau_front tau_back : R) :
  0 < k -> tau_front < tau_back ->
  0 < VarianceSwap.forward_var_vega self tau_front tau_back.
Proof.
  intros Hk Hlt. rewrite forward_var_vega_closed_form by lra.
  assert (exp (- k * tau_back) < exp (- k * tau_front))
    by (apply exp_increasing; nra).
  unfold Rdiv. apply Rmult_lt_0_compat; [lra |].
  now apply Rinv_0_lt_compat.
Qed.

(** X9. With a positive [kappa], the forward variance vega of a bucket of
    non-negative times [tau_front <= tau_back] is
    [(exp (- kappa * tau_front) - exp (- kappa * tau_back)) / kappa], and
    it lies between 0 and [1 / kappa]. *)
Theorem forward_var_vega_of_bucket (tau_front tau_back : R) :
  0 < k -> 0 <= tau_front -> tau_front <= tau_back ->
  VarianceSwap.forward_var_vega self tau_front tau_back
  = (exp (- k * tau_front) - exp (- k * tau_back)) / k
  /\ 0 <= VarianceSwap.forward_var_vega self tau_front tau_back <= 1 / k.
Proof.
  intros Hk Hfront Hle.
  rewrite forward_var_vega_closed_form by lra.
  split; [reflexivity |].
  assert (Hmono : exp (- k * tau_back) <= exp (- k * tau_front))
    by (apply exp_monotone; nra).
  pose proof (discount_range Hk Hfront) as [_ Hfront1].
  pose proof (exp_pos (- k * tau_back)) as Hback0.
  assert (Hik : 0 < / k) by (now apply Rinv_0_lt_compat).
  unfold Rdiv. split.
  - apply Rmult_le_pos; lra.
  - apply Rmult_le_compat_r; lra.
Qed.

End VarianceSwapPrice.

(** ** The variance swap: gamma *)

(** X10. The gamma P&L depends on the two forwards only through their
    ratio: quoting both in another unit leaves it unchanged. *)
Theorem gamma_pnl_scale_invariant (f_0 f_t c : R) :
  f_0 <> 0 -> c <> 0 ->
  VarianceSwap.gamma_pnl (c * f_0) (c * f_t) = VarianceSwap.gamma_pnl f_0 f_t.
Proof.
  intros Hf Hc. unfold_variance_swap.
  replace (c * f_t / (c * f_0)) with (f_t / f_0) by (field; split; assumption).
  reflexivity.
Qed.

(** X11. Over two consecutive moves of a positive forward, the gamma P&L of
    the whole move is the sum of the two gamma P&Ls plus twice the product
    of the two simple returns. *)
Theorem gamma_pnl_two_steps (f_0 f_1 f_2 : R) :
  0 < f_0 -> 0 < f_1 -> 0 < f_2 ->
  VarianceSwap.gamma_pnl f_0 f_2
  = VarianceSwap.gamma_pnl f_0 f_1 + VarianceSwap.gamma_pnl f_1 f_2
    + 2 * (f_1 / f_0 - 1) * (f_2 / f_1 - 1).
Proof.
  intros H0 H1 H2. unfold_variance_swap.
  assert (Hr1 : 0 < f_1 / f_0) by (apply Rdiv_lt_0_compat; assumption).
  assert (Hr2 : 0 < f_2 / f_1) by (apply Rdiv_lt_0_compat; assumption).
  replace (f_2 / f_0) with (f_1 / f_0 * (f_2 / f_1)) by (field; lra).
  rewrite (ln_mult _ _ Hr1 Hr2). ring.
Qed.

(** ** The skew-stickiness ratio and the sign of the hedge *)

(** X12. For a positive realized and a non-negative implied variance: the
    skew-stickiness ratio is unchanged when both variances are scaled by the
    same positive factor, it is [rho_spot_imp * vol_of_var] when the two
    variances agree, and its square times the realized variance is
    [(rho_spot_imp * vol_of_var)^2] times the implied variance. *)
Theorem var_skew_stikiness_ratio_scaling
    (self : self_t) (real_var imp_var c : R) :
  0 < real_var -> 0 <= imp_var -> 0 < c ->
  VarianceSwap.var_skew_stikiness_ratio self (c * real_var) (c * imp_var)
  = VarianceSwap.var_skew_stikiness_ratio self real_var imp_var
  /\ VarianceSwap.var_skew_stikiness_ratio self real_var real_var
     = rho_spot_imp (corr self) * vol_of_var (imp_var_params self)
  /\ VarianceSwap.var_skew_stikiness_ratio self real_var imp_var
     * VarianceSwap.var_skew_stikiness_ratio self real_var imp_var
     * real_var
     = (rho_spot_imp (corr self) * vol_of_var (imp_var_params self))
       * (rho_spot_imp (corr self) * vol_of_var (imp_var_params self))
       * imp_var.
Proof.
  intros Hreal Himp Hc. unfold_variance_swap.
  pose proof (sqrt_lt_R0 _ Hreal) as Hsr.
  pose proof (sqrt_lt_R0 _ Hc) as Hsc.
  pose proof (sqrt_sqrt real_var (Rlt_le _ _ Hreal)) as Hsq_real.
  pose proof (sqrt_sqrt imp_var Himp) as Hsq_imp.
  refine (conj _ (conj _ _)).
  - rewrite !sqrt_mult by lra. field. lra.
  - field. lra.
  - set (sr := sqrt real_var) in *. set (si := sqrt imp_var) in *.
    clearbody sr si. rewrite <- Hsq_real, <- Hsq_imp.
    field. lra.
Qed.

(** X13. For the variance swap with a positive [kappa], a non-negative
    [vol_of_var], a positive realized and a non-negative implied variance
    and times to expiry with [0 <= tau_t <= tau_0]: the minimum-variance
    delta is never of the sign opposite to [rho_spot_imp]; with a
    non-positive correlation the vega hedge does not lose when the forward
    rises and does not gain when it falls. *)
Theorem min_var_delta_sign
    (self : self_t) (f_0 f_t real_var_0 imp_var_0 tau_0 tau_t : R) :
  0 < kappa (imp_var_params self) ->
  0 <= vol_of_var (imp_var_params self) ->
  0 < real_var_0 -> 0 <= imp_var_0 -> 0 <= tau_t <= tau_0 ->
  (rho_spot_imp (corr self) <= 0 ->
   VarianceSwap.min_var_delta self real_var_0 imp_var_0 tau_0 tau_t <= 0)
  /\ (0 <= rho_spot_imp (corr self) ->
      0 <= VarianceSwap.min_var_delta self real_var_0 imp_var_0 tau_0 tau_t)
  /\ (rho_spot_imp (corr self) <= 0 -> f_0 <= f_t ->
      0 <= VarianceSwap.vega_hedge_pnl self f_0 f_t real_var_0 imp_var_0
             tau_0 tau_t)
  /\ (rho_spot_imp (corr self) <= 0 -> f_t <= f_0 ->
      VarianceSwap.vega_hedge_pnl self f_0 f_t real_var_0 imp_var_0
        tau_0 tau_t <= 0).
Proof.
  intros Hk Hvol Hreal Himp [Ht0 Ht].
  assert (Hfvv : 0 <= VarianceSwap.forward_var_vega self (tau_0 - tau_t) tau_0).
  { destruct Ht0 as [Hpos | <-].
    - left. apply forward_var_vega_pos; [exact Hk | lra].
    - right. unfold_variance_swap. rewrite Rminus_0_r. ring. }
  pose proof (sqrt_lt_R0 _ Hreal) as Hsr.
  pose proof (sqrt_pos imp_var_0) as Hsi.
  assert (Hq : 0 <= sqrt imp_var_0 / sqrt real_var_0).
  { unfold Rdiv. apply Rmult_le_pos; [exact Hsi |].
    left. now apply Rinv_0_lt_compat. }
  revert Hfvv.
  unfold VarianceSwap.min_var_delta, VarianceSwap.vega_hedge_pnl,
    VarianceSwap.forward_var_vega, vega_hedge_pnl, min_var_delta,
    var_skew_stikiness_ratio.
  cbn [broadcast np_add np_sub np_mul np_div np_neg np_sqrt scalar_layer].
  set (fvv := forward_var_vega self (tau_0 - tau_t) tau_0).
  set (rho := rho_spot_imp (corr self)).
  set (vol := vol_of_var (imp_var_params self)) in *.
  intros Hfvv.
  replace (rho * vol * sqrt imp_var_0 / sqrt real_var_0)
    with (rho * (vol * (sqrt imp_var_0 / sqrt real_var_0)))
    by (unfold Rdiv; ring).
  assert (Hw : 0 <= vol * (sqrt imp_var_0 / sqrt real_var_0))
    by (apply Rmult_le_pos; assumption).
  set (w := vol * (sqrt imp_var_0 / sqrt real_var_0)) in *.
  assert (Hfw : 0 <= fvv * w) by (apply Rmult_le_pos; assumption).
  refine (conj _ (conj _ (conj _ _))).
  - intros Hrho. nra.
  - intros Hrho. nra.
  - intros Hrho Hf.
    assert (Hd : fvv * (rho * w) <= 0) by nra.
    nra.
  - intros Hrho Hf.
    assert (Hd : fvv * (rho * w) <= 0) by nra.
    nra.
Qed.

(** ** The variance swap: what a move of the implied variance earns *)


(** X15. For the variance swap with a non-zero [kappa], when no time has
    passed ([tau_t = tau_0]) the theta P&L is zero and the variance vega P&L
    is the variance vega times the move of the implied variance. *)
Theorem no_time_elapsed
    (self : self_t) (imp_var_0 imp_var_t tau : R) :
  kappa (imp_var_params self) <> 0 ->
  VarianceSwap.theta_pnl self imp_var_0 tau tau = 0
  /\ VarianceSwap.var_vega_pnl self imp_var_0 tau imp_var_t tau
     = (imp_var_t - imp_var_0) * VarianceSwap.var_vega self tau.
Proof.
  intros Hk. unfold_variance_swap.
  replace (tau - tau) with 0 by ring.
  rewrite !Rmult_0_r, exp_0. split; field; exact Hk.
Qed.

(** ** Arrays, element by element *)

Ltac nth_of_elementwise :=
  cbn [broadcast np_add np_sub np_mul np_div np_neg np_exp np_log np_sqrt
       np_zeros_like scalar_layer array_layer];
  repeat first
    [ rewrite (Vector.nth_map2 _ _ _ _ _ _ eq_refl eq_refl)
    | rewrite (Vector.nth_map _ _ _ _ eq_refl)
    | rewrite Vector.const_nth ];
  try reflexivity.

(** X16. On arrays, every method of the variance swap works element by
    element: the element at index [p] of the result is the method applied to
    the elements at index [p] of its arguments, so no element of the input
    influences another element of the output. *)
Theorem variance_swap_elementwise
    (n : nat) (self : self_t) (a b c d e f g : ARRAY n) (p : Fin.t n) :
  let at_p (x : ARRAY n) := Vector.nth x p in
  at_p (VarianceSwap.price self a b) = VarianceSwap.price self (at_p a) (at_p b)
  /\ at_p (VarianceSwap.var_vega self a) = VarianceSwap.var_vega self (at_p a)
  /\ at_p (VarianceSwap.gamma_pnl a b) = VarianceSwap.gamma_pnl (at_p a) (at_p b)
  /\ at_p (VarianceSwap.vanna_pnl self a b c d e f)
     = VarianceSwap.vanna_pnl self (at_p a) (at_p b) (at_p c) (at_p d) (at_p e)
         (at_p f)
  /\ at_p (VarianceSwap.forward_var_vega self a b)
     = VarianceSwap.forward_var_vega self (at_p a) (at_p b)
  /\ at_p (VarianceSwap.var_skew_stikiness_ratio self a b)
     = VarianceSwap.var_skew_stikiness_ratio self (at_p a) (at_p b)
  /\ at_p (VarianceSwap.min_var_delta self a b c d)
     = VarianceSwap.min_var_delta self (at_p a) (at_p b) (at_p c) (at_p d)
  /\ at_p (VarianceSwap.theta_pnl self a b c)
     = VarianceSwap.theta_pnl self (at_p a) (at_p b) (at_p c)
  /\ at_p (VarianceSwap.var_vega_pnl self a b c d)
     = VarianceSwap.var_vega_pnl self (at_p a) (at_p b) (at_p c) (at_p d)
  /\ at_p (VarianceSwap.vega_hedge_pnl self a b c d e f)
     = VarianceSwap.vega_hedge_pnl self (at_p a) (at_p b) (at_p c) (at_p d)
         (at_p e) (at_p f)
  /\ at_p (VarianceSwap.total_pnl self a b c d e f g)
     = VarianceSwap.total_pnl self (at_p a) (at_p b) (at_p c) (at_p d)
         (at_p e) (at_p f) (at_p g).
Proof.
  intros at_p. unfold at_p.
  unfold VarianceSwap.total_pnl, VarianceSwap.var_vega_pnl,
    VarianceSwap.theta_pnl, VarianceSwap.vega_hedge_pnl,
    VarianceSwap.min_var_delta, VarianceSwap.var_skew_stikiness_ratio,
    VarianceSwap.forward_var_vega.
  unfold total_pnl, var_vega_pnl, theta_pnl, vega_hedge_pnl, min_var_delta,
    var_skew_stikiness_ratio, forward_var_vega.
  cbn [price var_vega gamma_pnl vanna_pnl VarianceSwap.instrument].
  unfold VarianceSwap.price, VarianceSwap.var_vega, VarianceSwap.gamma_pnl,
    VarianceSwap.vanna_pnl.
  repeat apply conj; nth_of_elementwise.
Qed.

(** ** Where a division, a square root or the logarithm leaves its domain *)

Section OutsideTheDomain.

Lemma lift2_None_r (f : R -> R -> R) (x : option R) : lift2 f x None = None.
Proof. destruct x; reflexivity. Qed.

Lemma checked_div_undefined (x : option R) : checked_div x (Some 0) = None.
Proof.
  destruct x as [a |]; [| reflexivity]. unfold checked_div.
  destruct (Req_dec_T 0 0) as [_ | Hn]; [reflexivity | now contradiction Hn].
Qed.

Lemma checked_div_None_r (x : option R) : checked_div x None = None.
Proof. destruct x; reflexivity. Qed.

Lemma checked_log_undefined (a : R) : a <= 0 -> checked_log (Some a) = None.
Proof.
  intros Ha. unfold checked_log.
  destruct (Rlt_dec 0 a) as [Hlt | _]; [lra | reflexivity].
Qed.

Lemma checked_sqrt_undefined (a : R) : a < 0 -> checked_sqrt (Some a) = None.
Proof.
  intros Ha. unfold checked_sqrt.
  destruct (Rle_dec 0 a) as [Hle | _]; [lra | reflexivity].
Qed.

Ltac unfold_checked_ops :=
  cbn [broadcast np_add np_sub np_mul np_div np_neg np_exp np_log np_sqrt
       np_zeros_like scalar_layer checked_layer lift1 lift2].

Lemma price_undefined (self : self_t) (imp_var tau : option R) :
  kappa (imp_var_params self) = 0 -> VarianceSwap.price self imp_var tau = None.
Proof.
  intros Hk. unfold VarianceSwap.price. unfold_checked_ops.
  rewrite Hk, checked_div_undefined. apply lift2_None_r.
Qed.

Lemma var_vega_undefined (self : self_t) (tau : option R) :
  kappa (imp_var_params self) = 0 -> VarianceSwap.var_vega self tau = None.
Proof.
  intros Hk. unfold VarianceSwap.var_vega. unfold_checked_ops.
  rewrite Hk. apply checked_div_undefined.
Qed.

Lemma gamma_pnl_defined (f_0 f_t : R) :
  f_0 <> 0 -> 0 < f_t / f_0 ->
  VarianceSwap.gamma_pnl (Some f_0) (Some f_t)
  = Some (VarianceSwap.gamma_pnl f_0 f_t).
Proof.
  intros H0 Hr. unfold VarianceSwap.gamma_pnl. unfold_checked_ops.
  rewrite (checked_div_defined f_t H0). unfold_checked_ops.
  now rewrite (checked_log_defined Hr).
Qed.

Lemma gamma_pnl_undefined (f_0 f_t : R) :
  f_0 = 0 \/ f_t / f_0 <= 0 ->
  VarianceSwap.gamma_pnl (Some f_0) (Some f_t) = None.
Proof.
  intros Hout. unfold VarianceSwap.gamma_pnl. unfold_checked_ops.
  destruct (Req_dec_T f_0 0) as [-> | H0].
  - now rewrite checked_div_undefined.
  - destruct Hout as [Hz | Hr]; [contradiction |].
    rewrite (checked_div_defined f_t H0). unfold_checked_ops.
    now rewrite (checked_log_undefined Hr).
Qed.

Lemma var_skew_stikiness_ratio_undefined (self : self_t) (real_var imp_var : R) :
  real_var <= 0 \/ imp_var < 0 ->
  VarianceSwap.var_skew_stikiness_ratio self (Some real_var) (Some imp_var)
  = None.
Proof.
  intros Hout.
  unfold VarianceSwap.var_skew_stikiness_ratio, var_skew_stikiness_ratio.
  unfold_checked_ops.
  destruct (Rlt_dec imp_var 0) as [Himp | Himp].
  - rewrite (checked_sqrt_undefined Himp). unfold_checked_ops.
    reflexivity.
  - destruct Hout as [Hreal | Hneg]; [| contradiction].
    rewrite (checked_sqrt_defined (a := imp_var)) by lra. unfold_checked_ops.
    destruct Hreal as [Hlt | ->].
    + rewrite (checked_sqrt_undefined Hlt). reflexivity.
    + rewrite (checked_sqrt_defined (a := 0)) by lra.
      rewrite sqrt_0. apply checked_div_undefined.
Qed.

(** X17. Where the primitives of the variance swap leave the domains of
    division, square root and logarithm, so that the code's result is nan
    or inf: the price and the variance vega at every input once [kappa] is
    zero; the gamma P&L when [f_0] is zero or the ratio [f_t / f_0] is not
    positive; the skew-stickiness ratio when the realized variance is not
    positive or the implied variance is negative.  The vanna P&L is zero
    even on an undefined input. *)
Theorem primitives_outside_the_domain
    (self : self_t) (imp_var tau f_0 f_t real_var : R) (garbage : option R) :
  (kappa (imp_var_params self) = 0 ->
   VarianceSwap.price self (Some imp_var) (Some tau) = None
   /\ VarianceSwap.var_vega self (Some tau) = None)
  /\ (f_0 = 0 \/ f_t / f_0 <= 0 ->
      VarianceSwap.gamma_pnl (Some f_0) (Some f_t) = None)
  /\ (real_var <= 0 \/ imp_var < 0 ->
      VarianceSwap.var_skew_stikiness_ratio self (Some real_var) (Some imp_var)
      = None)
  /\ VarianceSwap.vanna_pnl self garbage garbage garbage garbage garbage garbage
     = Some 0.
Proof.
  refine (conj _ (conj _ (conj _ _))).
  - intros Hk. split; [now apply price_undefined | now apply var_vega_undefined].
  - apply gamma_pnl_undefined.
  - apply var_skew_stikiness_ratio_undefined.
  - reflexivity.
Qed.

(** The total P&L leaves a domain as soon as [kappa] or [f_0] is zero, the
    ratio [f_t / f_0] is not positive, the realized variance is not positive
    or the implied variance at 0 is negative. *)
Lemma total_pnl_undefined
    (self : self_t) (f_0 f_t real_var_0 imp_var_0 tau_0 imp_var_t tau_t : R) :
  kappa (imp_var_params self) = 0 \/ f_0 = 0 \/ f_t / f_0 <= 0
  \/ real_var_0 <= 0 \/ imp_var_0 < 0 ->
  VarianceSwap.total_pnl self (Some f_0) (Some f_t) (Some real_var_0)
    (Some imp_var_0) (Some tau_0) (Some imp_var_t) (Some tau_t)
  = None.
Proof.
  intros Hout.
  unfold VarianceSwap.total_pnl, total_pnl, vega_hedge_pnl, min_var_delta,
    forward_var_vega.
  cbn [price var_vega gamma_pnl vanna_pnl VarianceSwap.instrument].
  fold (VarianceSwap.var_skew_stikiness_ratio (A := option R)).
  unfold VarianceSwap.vanna_pnl. unfold_checked_ops.
  destruct (Req_dec_T (kappa (imp_var_params self)) 0) as [Hk | Hk].
  { now rewrite !price_undefined by exact Hk. }
  rewrite !price_in_domain, !var_vega_in_domain by exact Hk.
  unfold_checked_ops.
  assert (Hg : (f_0 = 0 \/ f_t / f_0 <= 0) \/ (f_0 <> 0 /\ 0 < f_t / f_0)).
  { destruct (Req_dec_T f_0 0); [left; now left |].
    destruct (Rlt_dec 0 (f_t / f_0)); [right; now split |].
    left; right; lra. }
  destruct Hg as [Hg | [H0 Hr]].
  { now rewrite (gamma_pnl_undefined Hg). }
  rewrite (gamma_pnl_defined H0 Hr). unfold_checked_ops.
  rewrite var_skew_stikiness_ratio_undefined; [reflexivity |].
  destruct Hout as [Hz | [Hz | [Hz | [Hz | Hz]]]].
  - contradiction.
  - contradiction.
  - lra.
  - now left.
  - now right.
Qed.

(** X18. The total P&L of the variance swap leaves a domain, so that the
    code's result is nan or inf, as soon as [kappa] or [f_0] is zero, the
    ratio [f_t / f_0] is not positive, the realized variance is not
    positive or the implied variance at 0 is negative, whatever the other
    inputs are. *)
Theorem total_pnl_outside_the_domain
    (self : self_t) (f_0 f_t real_var_0 imp_var_0 tau_0 imp_var_t tau_t : R) :
  kappa (imp_var_params self) = 0 \/ f_0 = 0 \/ f_t / f_0 <= 0
  \/ real_var_0 <= 0 \/ imp_var_0 < 0 ->
  VarianceSwap.total_pnl self (Some f_0) (Some f_t) (Some real_var_0)
    (Some imp_var_0) (Some tau_0) (Some imp_var_t) (Some tau_t)
  = None
  /\ (real_var_0 <= 0 \/ imp_var_0 < 0 ->
      VarianceSwap.vega_hedge_pnl self (Some f_0) (Some f_t) (Some real_var_0)
        (Some imp_var_0) (Some tau_0) (Some tau_t)
      = None).
Proof.
  intros Hout. split; [now apply total_pnl_undefined |].
  intros Hvar.
  unfold VarianceSwap.vega_hedge_pnl, vega_hedge_pnl, min_var_delta.
  fold (VarianceSwap.var_skew_stikiness_ratio (A := option R)).
  rewrite (var_skew_stikiness_ratio_undefined self Hvar).
  unfold_checked_ops. now rewrite lift2_None_r.
Qed.

End OutsideTheDomain.

(** ** The further properties at the reference scenario *)

Lemma no_spot_vol_link_no_hedge_witness :
  let uncorrelated :=
    {| imp_var_params := reference_params;
       real_var_params := reference_params;
       corr := {| rho_spot_imp := 0 |} |} in
  rho_spot_imp (corr uncorrelated) = 0
  /\ 0 < kappa (imp_var_params uncorrelated)
  /\ 0 < 0.04 /\ 0 <= 0.09 /\ 0 <= 0.9 <= 1
  /\ VarianceSwap.vega_hedge_pnl uncorrelated 100 110 0.04 0.09 1 0.9 = 0.
Proof.
  intros uncorrelated.
  assert (Hk : 0 < kappa (imp_var_params uncorrelated)) by (cbn; lra).
  assert (Hreal : 0 < 0.04) by lra.
  assert (Himp : 0 <= 0.09) by lra.
  assert (Htau : 0 <= 0.9 <= 1) by lra.
  split; [reflexivity | split; [exact Hk | split; [exact Hreal |]]].
  split; [exact Himp | split; [exact Htau |]].
  apply (@no_spot_vol_link_no_hedge uncorrelated 100 110 0.04 0.09 1 0.09 0.9
           (or_introl eq_refl) Hk Hreal Himp Htau).
Defined.

Lemma empty_bucket_no_hedge_witness :
  0 < kappa (imp_var_params reference_swap) /\ 0 < 0.04 /\ 0 <= 0.09 /\ 0 <= 1
  /\ VarianceSwap.vega_hedge_pnl reference_swap 100 110 0.04 0.09 1 0 = 0.
Proof.
  assert (Hk : 0 < kappa (imp_var_params reference_swap)) by (cbn; lra).
  assert (Hreal : 0 < 0.04) by lra.
  assert (Himp : 0 <= 0.09) by lra.
  assert (Htau : 0 <= 1) by lra.
  split; [exact Hk | split; [exact Hreal | split; [exact Himp |]]].
  split; [exact Htau |].
  apply (@empty_bucket_no_hedge reference_swap 100 110 0.04 0.09 1
           Hk Hreal Himp Htau).
Defined.

Lemma price_between_levels_witness :
  0 < kappa (imp_var_params reference_swap) /\ 0 <= 1
  /\ 0 <= VarianceSwap.price reference_swap 0.09 1.
Proof.
  assert (Hk : 0 < kappa (imp_var_params reference_swap)) by (cbn; lra).
  assert (Ht : 0 <= 1) by lra.
  split; [exact Hk | split; [exact Ht |]].
  apply (@price_between_levels reference_swap 0.09 1 Hk Ht); cbn; lra.
Defined.

Lemma price_tower_witness :
  kappa (imp_var_params reference_swap) <> 0
  /\ VarianceSwap.price reference_swap 0.09 (0.5 + 0.5)
     = VarianceSwap.price reference_swap 0.09 0.5
       + VarianceSwap.price reference_swap
           (0.04 + (0.09 - 0.04) * exp (- (2) * 0.5)) 0.5.
Proof.
  assert (Hk : kappa (imp_var_params reference_swap) <> 0) by (cbn; lra).
  split; [exact Hk |].
  apply (@price_tower reference_swap 0.09 0.5 0.5 Hk).
Defined.

Lemma price_monotone_in_imp_var_witness :
  0 < kappa (imp_var_params reference_swap)
  /\ VarianceSwap.price reference_swap 0.04 1
     <= VarianceSwap.price reference_swap 0.09 1.
Proof.
  assert (Hk : 0 < kappa (imp_var_params reference_swap)) by (cbn; lra).
  split; [exact Hk |].
  apply (@price_monotone_in_imp_var reference_swap 0.04 0.09 1 Hk); lra.
Defined.

Lemma forward_var_vega_of_bucket_witness :
  0 < kappa (imp_var_params reference_swap) /\ 0 <= 0.1 /\ 0.1 <= 1
  /\ 0 <= VarianceSwap.forward_var_vega reference_swap 0.1 1.
Proof.
  assert (Hk : 0 < kappa (imp_var_params reference_swap)) by (cbn; lra).
  assert (Hfront : 0 <= 0.1) by lra.
  assert (Hle : 0.1 <= 1) by lra.
  split; [exact Hk | split; [exact Hfront | split; [exact Hle |]]].
  apply (@forward_var_vega_of_bucket reference_swap 0.1 1 Hk Hfront Hle).
Defined.

Lemma gamma_pnl_scale_invariant_witness :
  100 <> 0 /\ 0.01 <> 0
  /\ VarianceSwap.gamma_pnl (0.01 * 100) (0.01 * 110)
     = VarianceSwap.gamma_pnl 100 110.
Proof.
  assert (Hf : 100 <> 0) by lra.
  assert (Hc : 0.01 <> 0) by lra.
  split; [exact Hf | split; [exact Hc |]].
  apply (@gamma_pnl_scale_invariant 100 110 0.01 Hf Hc).
Defined.

Lemma gamma_pnl_two_steps_witness :
  0 < 100 /\ 0 < 110 /\ 0 < 99
  /\ VarianceSwap.gamma_pnl 100 99
     = VarianceSwap.gamma_pnl 100 110 + VarianceSwap.gamma_pnl 110 99
       + 2 * (110 / 100 - 1) * (99 / 110 - 1).
Proof.
  assert (H0 : 0 < 100) by lra.
  assert (H1 : 0 < 110) by lra.
  assert (H2 : 0 < 99) by lra.
  split; [exact H0 | split; [exact H1 | split; [exact H2 |]]].
  apply (@gamma_pnl_two_steps 100 110 99 H0 H1 H2).
Defined.

Lemma var_skew_stikiness_ratio_scaling_witness :
  0 < 0.04 /\ 0 <= 0.09 /\ 0 < 4
  /\ VarianceSwap.var_skew_stikiness_ratio reference_swap (4 * 0.04) (4 * 0.09)
     = VarianceSwap.var_skew_stikiness_ratio reference_swap 0.04 0.09.
Proof.
  assert (Hreal : 0 < 0.04) by lra.
  assert (Himp : 0 <= 0.09) by lra.
  assert (Hc : 0 < 4) by lra.
  split; [exact Hreal | split; [exact Himp | split; [exact Hc |]]].
  apply (@var_skew_stikiness_ratio_scaling reference_swap 0.04 0.09 4
           Hreal Himp Hc).
Defined.

Lemma min_var_delta_sign_witness :
  rho_spot_imp (corr reference_swap) <= 0
  /\ VarianceSwap.min_var_delta reference_swap 0.04 0.09 1 0.9 <= 0
  /\ 0 <= VarianceSwap.vega_hedge_pnl reference_swap 100 110 0.04 0.09 1 0.9.
Proof.
  assert (Hk : 0 < kappa (imp_var_params reference_swap)) by (cbn; lra).
  assert (Hvol : 0 <= vol_of_var (imp_var_params reference_swap)) by (cbn; lra).
  assert (Hreal : 0 < 0.04) by lra.
  assert (Himp : 0 <= 0.09) by lra.
  assert (Ht : 0 <= 0.9 <= 1) by lra.
  assert (Hrho : rho_spot_imp (corr reference_swap) <= 0) by (cbn; lra).
  pose proof (@min_var_delta_sign reference_swap 100 110 0.04 0.09 1 0.9
                Hk Hvol Hreal Himp Ht) as (Hneg & _ & Hgain & _).
  split; [exact Hrho | split; [exact (Hneg Hrho) | apply (Hgain Hrho); lra]].
Defined.


Lemma no_time_elapsed_witness :
  kappa (imp_var_params reference_swap) <> 0
  /\ VarianceSwap.theta_pnl reference_swap 0.09 1 1 = 0.
Proof.
  assert (Hk : kappa (imp_var_params reference_swap) <> 0) by (cbn; lra).
  split; [exact Hk |].
  apply (@no_time_elapsed reference_swap 0.09 0.08 1 Hk).
Defined.

Lemma total_pnl_unchanged_arrays_witness :
  let f := Vector.of_list [100; 110] in
  let real_var := Vector.of_list [0.04; 0.05] in
  let imp_var := Vector.of_list [0.09; 0.06] in
  let tau := Vector.of_list [1; 0.5] in
  kappa (imp_var_params reference_swap) <> 0
  /\ (forall p : Fin.t 2, 0 < Vector.nth f p)
  /\ (forall p : Fin.t 2, 0 < Vector.nth real_var p)
  /\ (forall p : Fin.t 2, 0 <= Vector.nth imp_var p)
  /\ VarianceSwap.total_pnl reference_swap f f real_var imp_var tau imp_var tau
     = Vector.const 0 2.
Proof.
  intros f real_var imp_var tau.
  assert (Hk : kappa (imp_var_params reference_swap) <> 0) by (cbn; lra).
  assert (Hf : forall p : Fin.t 2, 0 < Vector.nth f p).
  { intros p.
    apply (Fin.caseS' p); [cbn; lra |]. clear p. intros p.
    apply (Fin.caseS' p); [cbn; lra |]. clear p. intros p.
    pattern p. apply Fin.case0. }
  assert (Hreal : forall p : Fin.t 2, 0 < Vector.nth real_var p).
  { intros p.
    apply (Fin.caseS' p); [cbn; lra |]. clear p. intros p.
    apply (Fin.caseS' p); [cbn; lra |]. clear p. intros p.
    pattern p. apply Fin.case0. }
  assert (Himp : forall p : Fin.t 2, 0 <= Vector.nth imp_var p).
  { intros p.
    apply (Fin.caseS' p); [cbn; lra |]. clear p. intros p.
    apply (Fin.caseS' p); [cbn; lra |]. clear p. intros p.
    pattern p. apply Fin.case0. }
  split; [exact Hk | split; [exact Hf | split; [exact Hreal |]]].
  split; [exact Himp |].
  apply (@total_pnl_unchanged_arrays 2 reference_swap f real_var imp_var tau
           Hk Hf Hreal Himp).
Defined.

(** C3, as stated, fails outside the domain: with the forward, the implied
    variance and the time to expiry unchanged and a positive forward, but a
    realized variance of zero (or a negative one), the skew-stickiness ratio
    divides by zero (or takes the square root of a negative number) and the
    vega hedge P&L and the total P&L are not zero but undefined; the code
    returns nan. *)
Lemma zero_change_outside_the_domain :
  let hedge real_var :=
    VarianceSwap.vega_hedge_pnl reference_swap (Some 100) (Some 100)
      (Some real_var) (Some 0.09) (Some 1) (Some 1) in
  let total real_var :=
    VarianceSwap.total_pnl reference_swap (Some 100) (Some 100)
      (Some real_var) (Some 0.09) (Some 1) (Some 0.09) (Some 1) in
  0 < 100
  /\ hedge 0 = None /\ hedge 0 <> Some 0
  /\ total 0 = None /\ total 0 <> Some 0
  /\ hedge (-0.04) = None /\ total (-0.04) = None.
Proof.
  intros hedge total.
  assert (Hhedge : forall v, v <= 0 -> hedge v = None).
  { intros v Hv. unfold hedge.
    unfold VarianceSwap.vega_hedge_pnl, vega_hedge_pnl, min_var_delta.
    fold (VarianceSwap.var_skew_stikiness_ratio (A := option R)).
    rewrite (var_skew_stikiness_ratio_undefined reference_swap
               (real_var := v) (imp_var := 0.09) (or_introl Hv)).
    cbn [np_mul np_neg np_sub checked_layer lift1 lift2].
    now rewrite lift2_None_r. }
  assert (Htotal : forall v, v <= 0 -> total v = None).
  { intros v Hv. unfold total. apply total_pnl_undefined.
    right; right; right; left. exact Hv. }
  assert (H0 : 0 <= 0) by lra.
  assert (Hneg : -0.04 <= 0) by lra.
  rewrite (Hhedge 0 H0), (Htotal 0 H0), (Hhedge _ Hneg), (Htotal _ Hneg).
  repeat split; try lra; discriminate.
Qed.

(** ** What float64 does to the strict bounds *)

Set Warnings "-inexact-float".

Section Float64Facts.

Import PrimFloat.
Local Open Scope float_scope.

(** C7, as stated, fails: with [kappa = 2] the variance vega at [tau = 100]
    (and already at [tau = 19]) is exactly [1 / kappa], because
    [1 - exp (-200)] rounds to 1; it is not below [1 / kappa]. *)
Lemma var_vega_reaches_its_bound_in_float64 :
  let p := {| Float64.kappa := 2;
              Float64.mean_of_var := 0.04;
              Float64.vol_of_var := 0.3 |} in
  (0 <? Float64.kappa p) = true
  /\ (0 <=? 100) = true
  /\ Float64.var_vega p 100 = 1 / Float64.kappa p
  /\ (Float64.var_vega p 100 <? 1 / Float64.kappa p) = false
  /\ Float64.var_vega p 19 = 1 / Float64.kappa p.
Proof. vm_compute. repeat split. Qed.

(** C4, as stated, fails: from [f_0 = 1] to the float64 just below it, both
    positive and different, the gamma P&L is exactly zero, because the
    logarithm of the ratio rounds to the ratio minus one; it is not
    positive. *)
Lemma gamma_pnl_zero_after_a_move_in_float64 :
  let f_0 := 1 in
  let f_t := 0x1.fffffffffffffp-1 in
  (0 <? f_0) = true
  /\ (0 <? f_t) = true
  /\ (f_t =? f_0) = false
  /\ Float64.gamma_pnl f_0 f_t = 0
  /\ (0 <? Float64.gamma_pnl f_0 f_t) = false.
Proof. vm_compute. repeat split. Qed.

(** In float64 too an unmoved forward earns exactly zero. *)
Example gamma_pnl_unmoved_in_float64 :
  Float64.gamma_pnl 100 100 = 0 /\ Float64.gamma_pnl 0.1 0.1 = 0.
Proof. vm_compute. split; reflexivity. Qed.

End Float64Facts.

Set Warnings "inexact-float".

Lemma total_pnl_outside_the_domain_witness :
  0 <= 0
  /\ VarianceSwap.total_pnl reference_swap (Some 100) (Some 110) (Some 0)
       (Some 0.09) (Some 1) (Some 0.08) (Some 0.9)
     = None.
Proof.
  assert (Hreal : 0 <= 0) by lra.
  split; [exact Hreal |].
  apply (@total_pnl_outside_the_domain reference_swap 100 110 0 0.09 1 0.08 0.9).
  right; right; right; left. exact Hreal.
Defined.
